(** * apx dev-mode application reloader ([apx/cli/dev/reloader.py])

    A shallow embedding of [AppReloader] and of the part of the Python
    interpreter it touches ([sys.modules], the import machinery, the
    SQLModel registries, the logger), followed by the properties of the
    reload coordinator.

    Conventions.
    - Python [str] is [string]; [int] is [Z]; [dict] is [gmap].
    - A method that mutates [self] or interpreter globals and may raise is a
      computation in the monad [Py]: it takes the state and returns either
      the raised exception or the returned value, with the state reached at
      that point (what was mutated before a [raise] stays mutated).
    - [importlib.import_module] is a library function: it is a parameter of
      the development, together with the type [World] of what it reads and
      may change besides [sys.modules] (the files on disk, the finders). *)

From Stdlib Require Import ZArith Lia Ascii String List.
From stdpp Require Import gmap strings list fin_maps.


Local Open Scope Z_scope.

(** ** Python strings *)

Module PyStr.

(** [c in s] for a one-character [c]. *)
Fixpoint contains (c : ascii) (s : string) : bool :=
  match s with
  | EmptyString => false
  | String d s' => if Ascii.eqb d c then true else contains c s'
  end.

(** [s.startswith(p)]. *)
Fixpoint startswith (s p : string) : bool :=
  match p, s with
  | EmptyString, _ => true
  | String _ _, EmptyString => false
  | String c p', String d s' => if Ascii.eqb d c then startswith s' p' else false
  end.

(** [s.split(sep)] for a one-character [sep]: every separator cuts. *)
Fixpoint split (sep : ascii) (s : string) : list string :=
  match s with
  | EmptyString => [EmptyString]
  | String c s' =>
      if Ascii.eqb c sep then EmptyString :: split sep s'
      else match split sep s' with
           | w :: ws => String c w :: ws
           | [] => [String c EmptyString]
           end
  end.

(** [s.split(sep, 1)]: only the first separator cuts. *)
Fixpoint split_1 (sep : ascii) (s : string) : list string :=
  match s with
  | EmptyString => [EmptyString]
  | String c s' =>
      if Ascii.eqb c sep then [EmptyString; s']
      else match split_1 sep s' with
           | w :: ws => String c w :: ws
           | [] => [String c EmptyString]
           end
  end.

(** Number of occurrences of [c] in [s] ([s.count(c)]). *)
Fixpoint count (c : ascii) (s : string) : nat :=
  match s with
  | EmptyString => O
  | String d s' => if Ascii.eqb d c then S (count c s') else count c s'
  end.

End PyStr.

(** ** Python values seen by the reloader *)

(** Exceptions, by class, with their message. [OtherException] stands for
    any other subclass of [Exception]. *)
Inductive PyExn : Type :=
| ValueError (msg : string)
| ImportError (msg : string)
| AttributeError (msg : string)
| TypeError (msg : string)
| KeyError (key : string)
| OtherException (msg : string).

(** An object is known by its identity; [is_FastAPI] is
    [isinstance(obj, FastAPI)]. *)
Record PyObject : Type := { obj_id : N; is_FastAPI : bool }.

(** A module object: its name, its namespace, and its module-level
    [__getattr__] when it defines one: what that function returns or raises
    for a name that is not in the namespace. What else running it may do to
    the interpreter is outside the model. *)
Record Module : Type := {
  mod_name : string;
  mod_dict : gmap string PyObject;
  mod_getattr : option (string -> PyExn + PyObject)
}.

(** Attribute lookup on a module, as [getattr(module, name)] and
    [from module import name] do it: the namespace first; for a name that is
    not there the module's [__getattr__], which may return a value or raise
    any exception; without one, [AttributeError]. *)
Definition module_getattribute (module : Module) (name : string)
    : PyExn + PyObject :=
  match mod_dict module !! name with
  | Some v => inr v
  | None =>
      match mod_getattr module with
      | Some hook => hook name
      | None =>
          inl (AttributeError ("module '" +:+ mod_name module
                                 +:+ "' has no attribute '" +:+ name +:+ "'"))
      end
  end.

#[global] Instance PyObject_eq_dec : EqDecision PyObject.
Proof. solve_decision. Defined.

(** What [load_app] does to the world outside [self], in order. *)
Inductive Event : Type :=
| CallClearRegistry                      (* _clear_sqlmodel_registry() *)
| DelModules (base_path : string) (modules_to_delete : list string)
| CallImportModule (module_path : string)  (* importlib.import_module(module_path) *)
| CallGetattr (module_path attribute_name : string).

#[global] Instance Event_eq_dec : EqDecision Event.
Proof. solve_decision. Defined.

(** ** The reloader's fields *)

Record AppReloader : Type := {
  _app_instance : option PyObject;
  _app_module_name : option string;
  _reload_count : Z
}.

(** [AppReloader.__init__] *)
Definition __init__ : AppReloader :=
  {| _app_instance := None; _app_module_name := None; _reload_count := 0 |}.

(** ** Interpreter state and the monad of Python computations *)

(** The part of the Python runtime the reloader calls into and that is not
    its own code. [World] is what the import machinery reads and may change
    besides [sys.modules] (the files on disk, the finders).
    - [import_module name w sm] is [importlib.import_module(name)] run on
      world [w] and [sys.modules] [sm]: the exception it raises or the
      module it returns, and the world and [sys.modules] it leaves;
    - [format_exc e] is [traceback.format_exc()] while [e] is handled.
    Importing sees and changes the world and [sys.modules] only: the code
    being imported does not call back into the reloader. Exceptions are
    those of class [Exception]; an interrupt or an exit of the process is
    outside the model. *)
Class Runtime (World : Type) : Type := {
  import_module :
    string -> World -> gmap string Module ->
    (PyExn + Module) * World * gmap string Module;
  format_exc : PyExn -> string
}.

Section Reloader.

Context {World : Type} `{!Runtime World}.

Record Interp : Type := {
  self : AppReloader;                  (* the [AppReloader] instance *)
  sys_modules : gmap string Module;    (* [sys.modules] *)
  sqlmodel_metadata : list string;     (* tables in [SQLModel.metadata] *)
  sqlmodel_class_registry : option (list string);
    (* [SQLModel._sa_registry._class_registry], when both attributes exist *)
  world : World;
  log : list string;                   (* what [logger.error] received *)
  trace : list Event
}.

Definition set_self (r : AppReloader) (s : Interp) : Interp :=
  {| self := r; sys_modules := sys_modules s;
     sqlmodel_metadata := sqlmodel_metadata s;
     sqlmodel_class_registry := sqlmodel_class_registry s;
     world := world s; log := log s; trace := trace s |}.

Definition set_sys_modules (m : gmap string Module) (s : Interp) : Interp :=
  {| self := self s; sys_modules := m;
     sqlmodel_metadata := sqlmodel_metadata s;
     sqlmodel_class_registry := sqlmodel_class_registry s;
     world := world s; log := log s; trace := trace s |}.

Definition set_world (w : World) (s : Interp) : Interp :=
  {| self := self s; sys_modules := sys_modules s;
     sqlmodel_metadata := sqlmodel_metadata s;
     sqlmodel_class_registry := sqlmodel_class_registry s;
     world := w; log := log s; trace := trace s |}.

Definition set_sqlmodel (md : list string) (cr : option (list string))
    (s : Interp) : Interp :=
  {| self := self s; sys_modules := sys_modules s;
     sqlmodel_metadata := md; sqlmodel_class_registry := cr;
     world := world s; log := log s; trace := trace s |}.

Definition add_log (msg : string) (s : Interp) : Interp :=
  {| self := self s; sys_modules := sys_modules s;
     sqlmodel_metadata := sqlmodel_metadata s;
     sqlmodel_class_registry := sqlmodel_class_registry s;
     world := world s; log := log s ++ [msg]; trace := trace s |}.

Definition add_event (ev : Event) (s : Interp) : Interp :=
  {| self := self s; sys_modules := sys_modules s;
     sqlmodel_metadata := sqlmodel_metadata s;
     sqlmodel_class_registry := sqlmodel_class_registry s;
     world := world s; log := log s; trace := trace s ++ [ev] |}.

(** A computation: from a state, the exception raised or the value
    returned, and the state at that point. *)
Definition Py (A : Type) : Type := Interp -> (PyExn + A) * Interp.

Definition ret {A} (a : A) : Py A := fun s => (inr a, s).

Definition raise {A} (e : PyExn) : Py A := fun s => (inl e, s).

Definition bind {A B} (m : Py A) (k : A -> Py B) : Py B :=
  fun s =>
    match m s with
    | (inl e, s') => (inl e, s')
    | (inr a, s') => k a s'
    end.

(** [try: m / except Exception as e: h e]. *)
Definition try_except {A} (m : Py A) (h : PyExn -> Py A) : Py A :=
  fun s =>
    match m s with
    | (inl e, s') => h e s'
    | (inr a, s') => (inr a, s')
    end.

Definition get : Py Interp := fun s => (inr s, s).
Definition modify (f : Interp -> Interp) : Py unit := fun s => (inr tt, f s).

Notation "'let*' x ':=' m 'in' k" := (bind m (fun x => k))
  (at level 10, x pattern, m at level 100, k at level 200).
Notation "m '>>' k" := (bind m (fun _ => k))
  (at level 100, k at level 200, right associativity).

(** [logger.error(msg)] *)
Definition logger_error (msg : string) : Py unit := modify (add_log msg).

(** ** Messages (the f-strings of [load_app]) *)

Definition newline : string := String (ascii_of_nat 10) EmptyString.

Definition msg_invalid_format (app_module_name : string) : string :=
  "Invalid app module format '" +:+ app_module_name
    +:+ "'. Expected format: some.package.file:app".

Definition msg_import_failed (module_path : string) (e : PyExn) : string :=
  "Failed to import module " +:+ module_path +:+ ":" +:+ newline +:+ format_exc e.

Definition msg_no_attribute (module_path attribute_name : string) : string :=
  "Module " +:+ module_path +:+ " does not have attribute '"
    +:+ attribute_name +:+ "'".

Definition msg_not_fastapi (attribute_name : string) : string :=
  "'" +:+ attribute_name +:+ "' is not a FastAPI app instance".

(** ** [_clear_sqlmodel_registry] *)

(** [from sqlmodel import SQLModel] goes through the import machinery and
    then looks the name up on the module; an [ImportError] (the package or
    the name is missing) and any other exception are swallowed. On success
    the metadata is cleared, and the class registry too when it is there. *)
Definition _clear_sqlmodel_registry : Py unit :=
  fun s =>
    let '(r, w, sm) := import_module "sqlmodel" (world s) (sys_modules s) in
    let s1 := set_sys_modules sm (set_world w s) in
    match r with
    | inl _ => (inr tt, s1)
    | inr m =>
        match module_getattribute m "SQLModel" with
        | inl _ => (inr tt, s1)
        | inr _ =>
            (inr tt,
             set_sqlmodel []
               (match sqlmodel_class_registry s1 with
                | Some _ => Some []
                | None => None
                end) s1)
        end
    end.

(** ** Evicting modules from [sys.modules] *)

(** The test of the comprehension:
    [name.startswith(base_path + ".") or name == base_path]. *)
Definition owned_by (base_path name : string) : bool :=
  PyStr.startswith name (base_path +:+ ".") || String.eqb name base_path.

(** [[name for name in list(sys.modules.keys()) if ...]] *)
Definition modules_to_delete (base_path : string) (sm : gmap string Module)
    : list string :=
  filter (λ name, owned_by base_path name) (map_to_list sm).*1.

(** [del d[k]]: [KeyError] when [k] is absent. *)
Definition del_item (k : string) (sm : gmap string Module)
    : PyExn + gmap string Module :=
  match sm !! k with
  | Some _ => inr (delete k sm)
  | None => inl (KeyError k)
  end.

(** [for mod_name in names: del sys.modules[mod_name]] *)
Fixpoint del_modules (names : list string) : Py unit :=
  match names with
  | [] => ret tt
  | mod_name :: rest =>
      fun s =>
        match del_item mod_name (sys_modules s) with
        | inl e => (inl e, s)
        | inr sm => del_modules rest (set_sys_modules sm s)
        end
  end.

(** ** Calls into the import machinery and attribute lookup *)

Definition call_import_module (module_path : string) : Py Module :=
  fun s =>
    let '(r, w, sm) := import_module module_path (world s) (sys_modules s) in
    (r, add_event (CallImportModule module_path)
          (set_sys_modules sm (set_world w s))).

(** [getattr(module, attribute_name)] *)
Definition getattr (module_path : string) (module : Module)
    (attribute_name : string) : Py PyObject :=
  fun s =>
    (module_getattribute module attribute_name,
     add_event (CallGetattr module_path attribute_name) s).

(** [a, b = xs]: [ValueError] unless [xs] has exactly two items. *)
Definition unpack2 (xs : list string) : Py (string * string) :=
  match xs with
  | [a; b] => ret (a, b)
  | [] | [_] => raise (ValueError "not enough values to unpack (expected 2)")
  | _ => raise (ValueError "too many values to unpack (expected 2)")
  end.

(** ** [AppReloader.load_app] *)

(** The test of the first [if]: not forcing, an app is cached, and it was
    cached under this very string. *)
Definition cache_hit (r : AppReloader) (app_module_name : string)
    (reload : bool) : bool :=
  negb reload
  && bool_decide (_app_instance r <> None)
  && bool_decide (_app_module_name r = Some app_module_name).

(** The test of [if reload or self._app_instance is not None]. *)
Definition clears_modules (r : AppReloader) (reload : bool) : bool :=
  reload || bool_decide (_app_instance r <> None).

(** [self._reload_count += 1] *)
Definition bump (r : AppReloader) : AppReloader :=
  {| _app_instance := _app_instance r;
     _app_module_name := _app_module_name r;
     _reload_count := _reload_count r + 1 |}.

Definition incr_reload_count : Py unit :=
  modify (fun s => set_self (bump (self s)) s).

(** [self._app_instance = app_instance; self._app_module_name = name] *)
Definition cached (app_instance : PyObject) (app_module_name : string)
    (r : AppReloader) : AppReloader :=
  {| _app_instance := Some app_instance;
     _app_module_name := Some app_module_name;
     _reload_count := _reload_count r |}.

Definition cache_app (app_instance : PyObject) (app_module_name : string)
    : Py unit :=
  modify (fun s => set_self (cached app_instance app_module_name (self s)) s).

(** The body of [if reload or self._app_instance is not None:]. *)
Definition clear_module_cache (module_path : string) : Py unit :=
  modify (add_event CallClearRegistry) >>
  _clear_sqlmodel_registry >>
  let base_path := List.hd EmptyString (PyStr.split "." module_path) in
  let* s := get in
  let names := modules_to_delete base_path (sys_modules s) in
  modify (add_event (DelModules base_path names)) >>
  del_modules names >>
  incr_reload_count.

(** From [# Import the module] to the final [return], which hands back
    the two fields of [self] as they are then. *)
Definition import_and_cache (app_module_name module_path attribute_name : string)
    : Py (option PyObject * Z) :=
  let* module :=
    try_except (call_import_module module_path)
      (fun e => logger_error (msg_import_failed module_path e) >> raise e) in
  let* app_instance :=
    try_except (getattr module_path module attribute_name)
      (fun e =>
         match e with
         | AttributeError _ =>
             logger_error (msg_no_attribute module_path attribute_name) >>
             raise e
         | _ => raise e
         end) in
  if negb (is_FastAPI app_instance) then
    let error_msg := msg_not_fastapi attribute_name in
    logger_error error_msg >> raise (TypeError error_msg)
  else
    cache_app app_instance app_module_name >>
    let* s := get in
    ret (_app_instance (self s), _reload_count (self s)).

Definition load_app (app_module_name : string) (reload : bool)
    : Py (option PyObject * Z) :=
  let* s := get in
  if cache_hit (self s) app_module_name reload then
    ret (_app_instance (self s), _reload_count (self s))
  else if negb (PyStr.contains ":" app_module_name) then
    let error_msg := msg_invalid_format app_module_name in
    logger_error error_msg >> raise (ValueError error_msg)
  else
    let* (module_path, attribute_name) :=
      unpack2 (PyStr.split_1 ":" app_module_name) in
    (if clears_modules (self s) reload
     then clear_module_cache module_path
     else ret tt) >>
    import_and_cache app_module_name module_path attribute_name.

(** ** The other methods

    The module-level [load_app], [get_app], [get_reload_count] and
    [clear_app] pass their arguments to the same methods of the one global
    [_dev_reloader]; that instance is the [self] of the state. *)

(** [AppReloader.get_app] *)
Definition get_app : Py (option PyObject) :=
  let* s := get in ret (_app_instance (self s)).

(** [AppReloader.get_reload_count] *)
Definition get_reload_count : Py Z :=
  let* s := get in ret (_reload_count (self s)).

(** [AppReloader.clear] *)
Definition cleared (r : AppReloader) : AppReloader :=
  {| _app_instance := None;
     _app_module_name := None;
     _reload_count := _reload_count r |}.

Definition clear : Py unit :=
  modify (fun s => set_self (cleared (self s)) s).

(** ** Names for the intermediate states and for sequences of calls *)

Implicit Types (s : Interp) (r : AppReloader).

(** The state right after the sweep that [load_app] runs on [s]. *)
Definition swept s : Interp :=
  snd (_clear_sqlmodel_registry (add_event CallClearRegistry s)).

(** [module_path.split(".")[0]] *)
Definition base_path_of (module_path : string) : string :=
  List.hd EmptyString (PyStr.split "." module_path).

(** The state the block under [if reload or self._app_instance is not None]
    leaves: swept, the names of the comprehension deleted, the count
    bumped. *)
Definition evicted (module_path : string) s : Interp :=
  let s1 := swept s in
  let names := modules_to_delete (base_path_of module_path) (sys_modules s1) in
  set_self (bump (self s1))
    (set_sys_modules
       (foldl (fun m k => delete k m) (sys_modules s1) names)
       (add_event (DelModules (base_path_of module_path) names) s1)).

(** The state once [importlib.import_module(module_path)] has run and
    left world [w] and [sys.modules] [sm]. *)
Definition imported (module_path : string) (w : World) sm s : Interp :=
  add_event (CallImportModule module_path) (set_sys_modules sm (set_world w s)).

(** [except AttributeError] catches it. *)
Definition is_AttributeError (e : PyExn) : bool :=
  match e with
  | AttributeError _ => true
  | _ => false
  end.

(** The five ways the tail of [load_app] can end, with the exception or
    value and the state each one leaves. *)
Inductive ImportOutcome (app_module_name module_path attribute_name : string)
    s : (PyExn + option PyObject * Z) * Interp -> Prop :=
| import_raises e w sm :
    import_module module_path (world s) (sys_modules s) = (inl e, w, sm) ->
    ImportOutcome app_module_name module_path attribute_name s
      (inl e,
       add_log (msg_import_failed module_path e)
         (imported module_path w sm s))
| attribute_missing m w sm msg :
    import_module module_path (world s) (sys_modules s) = (inr m, w, sm) ->
    module_getattribute m attribute_name = inl (AttributeError msg) ->
    ImportOutcome app_module_name module_path attribute_name s
      (inl (AttributeError msg),
       add_log (msg_no_attribute module_path attribute_name)
         (add_event (CallGetattr module_path attribute_name)
            (imported module_path w sm s)))
| getattr_raises m w sm e :
    import_module module_path (world s) (sys_modules s) = (inr m, w, sm) ->
    module_getattribute m attribute_name = inl e ->
    is_AttributeError e = false ->
    ImportOutcome app_module_name module_path attribute_name s
      (inl e,
       add_event (CallGetattr module_path attribute_name)
         (imported module_path w sm s))
| not_a_FastAPI m w sm v :
    import_module module_path (world s) (sys_modules s) = (inr m, w, sm) ->
    module_getattribute m attribute_name = inr v ->
    is_FastAPI v = false ->
    ImportOutcome app_module_name module_path attribute_name s
      (inl (TypeError (msg_not_fastapi attribute_name)),
       add_log (msg_not_fastapi attribute_name)
         (add_event (CallGetattr module_path attribute_name)
            (imported module_path w sm s)))
| app_loaded m w sm v :
    import_module module_path (world s) (sys_modules s) = (inr m, w, sm) ->
    module_getattribute m attribute_name = inr v ->
    is_FastAPI v = true ->
    ImportOutcome app_module_name module_path attribute_name s
      (inr (Some v, _reload_count (self s)),
       set_self (cached v app_module_name (self s))
         (add_event (CallGetattr module_path attribute_name)
            (imported module_path w sm s))).

(** The two names [load_app] unpacks from the target string. *)
Definition module_path_of (app_module_name : string) : string :=
  List.hd EmptyString (PyStr.split_1 ":" app_module_name).

Definition attribute_name_of (app_module_name : string) : string :=
  List.nth 1 (PyStr.split_1 ":" app_module_name) EmptyString.

(** The state in which the import starts: after the eviction block when
    its guard holds, the entry state otherwise. *)
Definition prepared (app_module_name : string) (reload : bool) s : Interp :=
  if clears_modules (self s) reload
  then evicted (module_path_of app_module_name) s
  else s.

(** The counter is bumped on exactly one path: no cache hit, a separator
    in the target, and the eviction guard. *)
Definition bumps r (app_module_name : string) (reload : bool) : bool :=
  negb (cache_hit r app_module_name reload)
  && PyStr.contains ":" app_module_name
  && clears_modules r reload.

(** One step of the process holding the reloader: a call of one of the
    four methods, or anything else, which may change the interpreter
    state around the reloader but not its fields. *)
Inductive step : Interp -> Interp -> Prop :=
| step_load_app app_module_name reload s :
    step s (snd (load_app app_module_name reload s))
| step_get_app s : step s (snd (get_app s))
| step_get_reload_count s : step s (snd (get_reload_count s))
| step_clear s : step s (snd (clear s))
| step_outside s s' : self s' = self s -> step s s'.

(** The states a freshly constructed reloader can get to. *)
Definition reachable s : Prop :=
  exists s0, self s0 = __init__ /\ rtc step s0 s.

(** What holds of the fields in every such state. *)
Record consistent r : Prop := {
  cached_both : _app_instance r = None <-> _app_module_name r = None;
  cached_name_has_separator :
    forall n, _app_module_name r = Some n -> PyStr.contains ":" n = true;
  cached_is_FastAPI :
    forall v, _app_instance r = Some v -> is_FastAPI v = true;
  reload_count_nonneg : 0 <= _reload_count r
}.

(** The events of the eviction block, when its guard holds. *)
Definition prelude (app_module_name : string) (reload : bool) s : list Event :=
  if clears_modules (self s) reload then
    [CallClearRegistry;
     DelModules (base_path_of (module_path_of app_module_name))
       (modules_to_delete (base_path_of (module_path_of app_module_name))
          (sys_modules (swept s)))]
  else [].

(** How many times [importlib.import_module] was called by [load_app]. *)
Definition is_import_call (ev : Event) : bool :=
  match ev with
  | CallImportModule _ => true
  | _ => false
  end.

Definition import_calls (tr : list Event) : nat :=
  length (filter (fun ev => is_import_call ev) tr).

End Reloader.

Arguments Interp World : clear implicits.
Arguments Py World A : clear implicits.

(** ** A small import machinery to run the model on

    The world is a source tree: for each module name, what executing its
    source gives. The empty name is refused with [ValueError]; a module
    already in [sys.modules] is returned as it is; otherwise its source is
    executed and, on success, the module is entered in [sys.modules]. *)

Module Demo.

Definition Disk : Type := list (string * (PyExn + Module)).

Fixpoint find_source (name : string) (d : Disk) : option (PyExn + Module) :=
  match d with
  | [] => None
  | (n, r) :: d' => if String.eqb n name then Some r else find_source name d'
  end.

Definition disk_import_module (name : string) (d : Disk) (sm : gmap string Module)
    : (PyExn + Module) * Disk * gmap string Module :=
  if String.eqb name "" then (inl (ValueError "Empty module name"), d, sm)
  else
  match sm !! name with
  | Some m => (inr m, d, sm)
  | None =>
      match find_source name d with
      | Some (inr m) => (inr m, d, <[name := m]> sm)
      | Some (inl e) => (inl e, d, sm)
      | None => (inl (ImportError ("No module named '" +:+ name +:+ "'")), d, sm)
      end
  end.

Definition disk_format_exc (e : PyExn) : string :=
  match e with
  | ValueError m => "ValueError: " +:+ m
  | ImportError m => "ImportError: " +:+ m
  | AttributeError m => "AttributeError: " +:+ m
  | TypeError m => "TypeError: " +:+ m
  | KeyError k => "KeyError: " +:+ k
  | OtherException m => "Exception: " +:+ m
  end.

#[global] Instance disk_runtime : Runtime Disk :=
  {| import_module := disk_import_module; format_exc := disk_format_exc |}.

Definition service : PyObject := {| obj_id := 1; is_FastAPI := true |}.
Definition service' : PyObject := {| obj_id := 2; is_FastAPI := true |}.
Definition settings : PyObject := {| obj_id := 3; is_FastAPI := false |}.

Definition pkg : Module :=
  {| mod_name := "pkg"; mod_dict := ∅; mod_getattr := None |}.
Definition pkg_app : Module :=
  {| mod_name := "pkg.app";
     mod_dict := {[ "service" := service; "settings" := settings ]};
     mod_getattr := None |}.
Definition pkgfoo : Module :=
  {| mod_name := "pkgfoo"; mod_dict := ∅; mod_getattr := None |}.
Definition sqlmodel : Module :=
  {| mod_name := "sqlmodel";
     mod_dict := {[ "SQLModel" := {| obj_id := 9; is_FastAPI := false |} ]};
     mod_getattr := None |}.
Definition other_app : Module :=
  {| mod_name := "other.app"; mod_dict := {[ "api" := service' ]};
     mod_getattr := None |}.



(** A tree where everything imports. *)
Definition good_disk : Disk :=
  [("pkg", inr pkg); ("pkg.app", inr pkg_app); ("pkgfoo", inr pkgfoo);
   ("other.app", inr other_app); ("sqlmodel", inr sqlmodel)].

(** The same tree after an edit that broke [pkg.app]. *)
Definition broken_disk : Disk :=
  [("pkg", inr pkg); ("pkg.app", inl (OtherException "SyntaxError"));
   ("pkgfoo", inr pkgfoo); ("other.app", inr other_app)].

Definition start (d : Disk) (r : AppReloader) (sm : gmap string Module)
    : Interp Disk :=
  {| self := r; sys_modules := sm; sqlmodel_metadata := ["hero"];
     sqlmodel_class_registry := Some ["Hero"]; world := d;
     log := []; trace := [] |}.

(** A reloader that has [service] cached from ["pkg.app:service"]. *)
Definition loaded : AppReloader :=
  {| _app_instance := Some service;
     _app_module_name := Some "pkg.app:service";
     _reload_count := 0 |}.

Definition loaded_modules : gmap string Module :=
  {[ "pkg" := pkg; "pkg.app" := pkg_app; "pkgfoo" := pkgfoo ]}.

(** A fresh reloader in a fresh interpreter, sources in order. *)
Definition fresh : Interp Disk := start good_disk __init__ ∅.


(** [service] is cached and the sources are in order. *)
Definition loaded_good : Interp Disk := start good_disk loaded loaded_modules.

(** [service] is cached and [pkg.app] has just been broken on disk. *)
Definition loaded_broken : Interp Disk :=
  start broken_disk loaded loaded_modules.

(** The state the first load leaves. *)
Definition after_first_load : Interp Disk :=
  snd (load_app "pkg.app:service" false fresh).

(** The state a forced reload leaves after that. *)
Definition after_forced_reload : Interp Disk :=
  snd (load_app "pkg.app:service" true after_first_load).

(** The state a forced reload leaves when [pkg.app] is broken. *)
Definition after_failed_reload : Interp Disk :=
  snd (load_app "pkg.app:service" true loaded_broken).

End Demo.

(** ** The spec's notion of a well-formed target

    A target string is well formed when it has exactly one [":"] and
    neither side of it is empty. The code never computes this
    predicate; it is here to state what the claims assume. *)
Definition valid_target (target : string) : bool :=
  Nat.eqb (PyStr.count ":" target) 1
  && match PyStr.split_1 ":" target with
     | [module_path; attribute_name] =>
         negb (String.eqb module_path "") && negb (String.eqb attribute_name "")
     | _ => false
     end.

(** ** Sequences of method calls

    What a caller does with the reloader over time: one method call after
    the other, each on the state the previous one left, whether it returned
    or raised. *)
Inductive Op : Type :=
| OpLoadApp (app_module_name : string) (reload : bool)
| OpGetApp
| OpGetReloadCount
| OpClear.

Definition do_op {World : Type} `{!Runtime World} (op : Op) (s : Interp World)
    : Interp World :=
  match op with
  | OpLoadApp app_module_name reload => snd (load_app app_module_name reload s)
  | OpGetApp => snd (get_app s)
  | OpGetReloadCount => snd (get_reload_count s)
  | OpClear => snd (clear s)
  end.

Definition run {World : Type} `{!Runtime World} (ops : list Op) (s : Interp World)
    : Interp World :=
  foldl (fun s op => do_op op s) s ops.

(** How many times the loop over [modules_to_delete] was entered. *)
Definition is_eviction (ev : Event) : bool :=
  match ev with
  | DelModules _ _ => true
  | _ => false
  end.

Definition evictions (tr : list Event) : nat :=
  length (filter (fun ev => is_eviction ev) tr).

(** * Properties *)

(** ** Strings *)

Lemma contains_count c s : PyStr.contains c s = true <-> PyStr.count c s <> O.
Proof.
  induction s as [|d s IH]; simpl.
  - split; [discriminate | congruence].
  - destruct (Ascii.eqb d c); [split; [lia | reflexivity] | exact IH].
Qed.

Lemma split_1_contains c s :
  PyStr.contains c s = true ->
  exists a b, PyStr.split_1 c s = [a; b]
              /\ s = a +:+ String c b /\ PyStr.contains c a = false.
Proof.
  induction s as [|d s IH]; simpl; [discriminate|].
  destruct (Ascii.eqb d c) eqn:E.
  - intros _. apply Ascii.eqb_eq in E as ->.
    exists EmptyString, s. auto.
  - intros H. destruct (IH H) as (a & b & -> & -> & Ha).
    exists (String d a), b. simpl. rewrite E. auto.
Qed.

Lemma split_1_no_separator c s :
  PyStr.contains c s = false -> PyStr.split_1 c s = [s].
Proof.
  induction s as [|d s IH]; simpl; [reflexivity|].
  destruct (Ascii.eqb d c); [discriminate|].
  intros H. rewrite (IH H). reflexivity.
Qed.

(** [s.split(c)] has a first item: indexing it with [[0]] cannot raise. *)
Lemma split_not_nil c s : PyStr.split c s <> [].
Proof.
  destruct s as [|d s]; simpl; [discriminate|].
  destruct (Ascii.eqb d c); [discriminate|].
  destruct (PyStr.split c s); discriminate.
Qed.

(** The first item of [s.split(c)] is [s] up to its first [c]. *)
Lemma split_hd_split_1 c s :
  List.hd EmptyString (PyStr.split c s) = List.hd EmptyString (PyStr.split_1 c s).
Proof.
  induction s as [|d s IH]; simpl; [reflexivity|].
  destruct (Ascii.eqb d c); [reflexivity|].
  destruct (PyStr.split c s), (PyStr.split_1 c s); simpl in *; congruence.
Qed.

Lemma append_String c p rest : String c p +:+ rest = String c (p +:+ rest).
Proof. reflexivity. Qed.

Lemma append_assoc a b c : (a +:+ b) +:+ c = a +:+ (b +:+ c).
Proof.
  induction a as [|x a IH]; [reflexivity|].
  rewrite !append_String, IH. reflexivity.
Qed.

Lemma startswith_spec s p :
  PyStr.startswith s p = true <-> exists rest, s = p +:+ rest.
Proof.
  revert s. induction p as [|c p IH]; intros s.
  - split; [exists s; reflexivity | destruct s; reflexivity].
  - destruct s as [|d s]; simpl.
    + split; [discriminate | intros [rest H]; discriminate].
    + destruct (Ascii.eqb d c) eqn:E.
      * apply Ascii.eqb_eq in E as ->. rewrite IH.
        split; intros [rest H]; exists rest;
          rewrite ?append_String in *; congruence.
      * split; [discriminate|]. intros [rest H].
        rewrite append_String in H. injection H as -> _.
        rewrite Ascii.eqb_refl in E. discriminate.
Qed.

(** [owned_by] is the dot-boundary test: the name is the base path itself
    or the base path, a dot, and something more. *)
Lemma owned_by_spec base_path name :
  owned_by base_path name = true
  <-> name = base_path \/ exists rest, name = base_path +:+ "." +:+ rest.
Proof.
  unfold owned_by. rewrite orb_true_iff, startswith_spec, String.eqb_eq.
  split.
  - intros [[rest ->] | ->]; [right | left; reflexivity].
    exists rest. apply append_assoc.
  - intros [-> | [rest ->]]; [right; reflexivity | left].
    exists rest. symmetry. apply append_assoc.
Qed.

(** ** The model, step by step *)

Section Properties.

Context {World : Type} `{!Runtime World}.

Implicit Types (s : Interp World) (r : AppReloader).
Implicit Types (sm : gmap string Module) (name base_path : string).

(** *** Deleting from [sys.modules] *)

Lemma lookup_foldl_delete (names : list string) sm name :
  foldl (fun m k => delete k m) sm names !! name
  = if decide (name ∈ names) then None else sm !! name.
Proof.
  revert sm. induction names as [|k names IH]; intros sm.
  - destruct (decide (name ∈ [])) as [H|H]; [by apply elem_of_nil in H | done].
  - cbn [foldl]. rewrite IH.
    destruct (decide (name ∈ names)) as [H1|H1],
             (decide (name ∈ k :: names)) as [H2|H2]; try done.
    + exfalso. apply H2. by right.
    + apply elem_of_cons in H2 as [->|?]; [apply lookup_delete_eq | done].
    + apply lookup_delete_ne. intros ->. apply H2. by left.
Qed.

Lemma elem_of_modules_to_delete base_path sm name :
  name ∈ modules_to_delete base_path sm
  <-> owned_by base_path name = true /\ is_Some (sm !! name).
Proof.
  unfold modules_to_delete.
  rewrite list_elem_of_filter, Is_true_true, list_elem_of_fmap.
  split.
  - intros [Ho [[k m] [-> Hin]]]. apply elem_of_map_to_list in Hin. eauto.
  - intros [Ho [m Hm]]. split; [done|].
    exists (name, m). split; [done|]. by apply elem_of_map_to_list.
Qed.

Lemma NoDup_modules_to_delete base_path sm :
  NoDup (modules_to_delete base_path sm).
Proof. apply NoDup_filter, NoDup_fst_map_to_list. Qed.

(** What is left of [sys.modules] once the names picked by the
    comprehension are deleted. *)
Lemma lookup_after_delete base_path sm name :
  foldl (fun m k => delete k m) sm (modules_to_delete base_path sm) !! name
  = if owned_by base_path name then None else sm !! name.
Proof.
  rewrite lookup_foldl_delete. case_decide as H.
  - apply elem_of_modules_to_delete in H as [-> _]. done.
  - destruct (owned_by base_path name) eqn:Ho; [|done].
    destruct (sm !! name) eqn:Hm; [|done].
    exfalso. apply H, elem_of_modules_to_delete. eauto.
Qed.

(** The loop never meets a missing key when its names are distinct keys
    of the dictionary. *)
Lemma del_modules_run (names : list string) s :
  NoDup names ->
  (forall k, k ∈ names -> is_Some (sys_modules s !! k)) ->
  del_modules names s
  = (inr tt,
     set_sys_modules (foldl (fun m k => delete k m) (sys_modules s) names) s).
Proof.
  revert s. induction names as [|k names IH]; intros s Hnd Hin; simpl.
  - by destruct s.
  - apply NoDup_cons in Hnd as [Hk Hnd].
    unfold del_item. destruct (Hin k) as [m ->]; [by left|].
    rewrite IH; [done | done |].
    intros k' Hk'. simpl. rewrite lookup_delete_ne.
    + apply Hin. by right.
    + intros ->. done.
Qed.

(** *** The registry sweep *)

(** [_clear_sqlmodel_registry] returns normally whatever the import does,
    and touches neither [self], the log nor the trace. *)
Lemma _clear_sqlmodel_registry_returns s :
  exists s', _clear_sqlmodel_registry s = (inr tt, s')
             /\ self s' = self s /\ trace s' = trace s /\ log s' = log s.
Proof.
  unfold _clear_sqlmodel_registry.
  destruct (import_module "sqlmodel" (world s) (sys_modules s)) as [[[e|m] w] sm].
  - eauto.
  - destruct (module_getattribute m "SQLModel"); eauto.
Qed.

Lemma swept_self s : self (swept s) = self s.
Proof.
  unfold swept.
  destruct (_clear_sqlmodel_registry_returns (add_event CallClearRegistry s))
    as (s' & -> & H & _). exact H.
Qed.

Lemma swept_trace s : trace (swept s) = trace s ++ [CallClearRegistry].
Proof.
  unfold swept.
  destruct (_clear_sqlmodel_registry_returns (add_event CallClearRegistry s))
    as (s' & -> & _ & H & _). exact H.
Qed.


(** *** The block under [if reload or self._app_instance is not None] *)

Lemma clear_module_cache_run module_path s :
  clear_module_cache module_path s
  = (inr tt, evicted module_path s).
Proof.
  unfold clear_module_cache, evicted, swept, bind, modify, get,
    incr_reload_count.
  destruct (_clear_sqlmodel_registry_returns (add_event CallClearRegistry s))
    as (s1 & -> & _). cbn [snd].
  rewrite del_modules_run.
  - reflexivity.
  - apply NoDup_modules_to_delete.
  - intros k Hk. apply elem_of_modules_to_delete in Hk as [_ Hk]. exact Hk.
Qed.

Lemma evicted_self module_path s : self (evicted module_path s) = bump (self s).
Proof. unfold evicted. simpl. by rewrite swept_self. Qed.


Lemma evicted_trace module_path s :
  trace (evicted module_path s)
  = trace s ++ [CallClearRegistry;
                DelModules (base_path_of module_path)
                  (modules_to_delete (base_path_of module_path)
                     (sys_modules (swept s)))].
Proof.
  unfold evicted. simpl. rewrite swept_trace, <- app_assoc. reflexivity.
Qed.

Lemma evicted_sys_modules module_path s name :
  sys_modules (evicted module_path s) !! name
  = if owned_by (base_path_of module_path) name then None
    else sys_modules (swept s) !! name.
Proof. unfold evicted. simpl. apply lookup_after_delete. Qed.

(** *** From the import to the return *)

Lemma import_and_cache_outcome app_module_name module_path attribute_name s :
  ImportOutcome app_module_name module_path attribute_name s
    (import_and_cache
       app_module_name module_path attribute_name s).
Proof.
  unfold import_and_cache, bind, try_except, call_import_module, getattr,
    logger_error, modify, raise, cache_app, get, ret.
  destruct (import_module module_path (world s) (sys_modules s))
    as [[[e|m] w] sm] eqn:Him.
  - by apply import_raises.
  - destruct (module_getattribute m attribute_name) as [e|v] eqn:Hat.
    + destruct e;
        first [by eapply attribute_missing | by eapply getattr_raises].
    + destruct (is_FastAPI v) eqn:Hv; simpl.
      * by eapply app_loaded.
      * by eapply not_a_FastAPI.
Qed.

(** What every outcome has in common. *)
Lemma ImportOutcome_frame app_module_name module_path attribute_name s res s' :
  ImportOutcome app_module_name module_path attribute_name s (res, s') ->
  _reload_count (self s') = _reload_count (self s)
  /\ (exists rest,
        trace s' = trace s ++ CallImportModule module_path :: rest
        /\ (rest = [] \/ rest = [CallGetattr module_path attribute_name]))
  /\ match res with
     | inl _ => self s' = self s
     | inr (h, g) =>
         exists v, h = Some v /\ is_FastAPI v = true
                   /\ g = _reload_count (self s)
                   /\ self s' = cached v app_module_name (self s)
     end.
Proof.
  inversion 1; subst; simpl; (split; [reflexivity|]); split;
    try reflexivity; eauto 8.
  all: exists [CallGetattr module_path attribute_name];
    rewrite <- app_assoc; auto.
Qed.

(** *** The two guards *)

Lemma cache_hit_spec r (app_module_name : string) (reload : bool) :
  cache_hit r app_module_name reload = true
  <-> reload = false /\ _app_instance r <> None
      /\ _app_module_name r = Some app_module_name.
Proof.
  unfold cache_hit.
  rewrite !andb_true_iff, negb_true_iff, !bool_decide_eq_true. tauto.
Qed.

Lemma clears_modules_spec r (reload : bool) :
  clears_modules r reload = true
  <-> reload = true \/ _app_instance r <> None.
Proof.
  unfold clears_modules. rewrite orb_true_iff, bool_decide_eq_true. tauto.
Qed.

(** *** The three paths through [load_app] *)

Lemma load_app_hit app_module_name reload s :
  cache_hit (self s) app_module_name reload = true ->
  load_app app_module_name reload s
  = (inr (_app_instance (self s), _reload_count (self s)), s).
Proof. intros H. unfold load_app, bind, get. by rewrite H. Qed.

Lemma load_app_no_separator app_module_name reload s :
  cache_hit (self s) app_module_name reload = false ->
  PyStr.contains ":" app_module_name = false ->
  load_app app_module_name reload s
  = (inl (ValueError (msg_invalid_format app_module_name)),
     add_log (msg_invalid_format app_module_name) s).
Proof.
  intros H1 H2. unfold load_app, bind, get. by rewrite H1, H2.
Qed.

Lemma load_app_reload_path app_module_name reload s :
  cache_hit (self s) app_module_name reload = false ->
  PyStr.contains ":" app_module_name = true ->
  load_app app_module_name reload s
  = import_and_cache app_module_name
      (module_path_of app_module_name) (attribute_name_of app_module_name)
      (prepared app_module_name reload s).
Proof.
  intros H1 H2. unfold load_app, bind, get, prepared,
    module_path_of, attribute_name_of.
  rewrite H1, H2. cbn [negb fst snd].
  destruct (split_1_contains _ _ H2) as (a & b & -> & _). cbn.
  destruct (clears_modules (self s) reload).
  - by rewrite clear_module_cache_run.
  - reflexivity.
Qed.


(** *** What a call does to [self] *)

Lemma prepared_self app_module_name reload s :
  self (prepared app_module_name reload s)
  = if clears_modules (self s) reload then bump (self s) else self s.
Proof.
  unfold prepared. destruct (clears_modules _ _); [apply evicted_self | done].
Qed.

Lemma load_app_reload_count app_module_name reload s :
  _reload_count (self (snd (load_app app_module_name reload s)))
  = _reload_count (self s)
    + (if bumps (self s) app_module_name reload then 1 else 0).
Proof.
  unfold bumps.
  destruct (cache_hit (self s) app_module_name reload) eqn:Hhit.
  { rewrite load_app_hit by done. simpl. lia. }
  destruct (PyStr.contains ":" app_module_name) eqn:Hsep.
  2:{ rewrite load_app_no_separator by done. simpl. lia. }
  rewrite load_app_reload_path by done.
  pose proof (import_and_cache_outcome app_module_name
    (module_path_of app_module_name) (attribute_name_of app_module_name)
    (prepared app_module_name reload s)) as Ho.
  destruct (import_and_cache _ _ _ _) as [res s']. cbn [snd].
  apply ImportOutcome_frame in Ho as (-> & _). rewrite prepared_self.
  simpl. destruct (clears_modules (self s) reload); simpl; lia.
Qed.

(** A call that raises leaves the cached app and its name as they were. *)
Lemma load_app_raise_keeps_cache app_module_name reload s e s' :
  load_app app_module_name reload s = (inl e, s') ->
  _app_instance (self s') = _app_instance (self s)
  /\ _app_module_name (self s') = _app_module_name (self s).
Proof.
  destruct (cache_hit (self s) app_module_name reload) eqn:Hhit.
  { rewrite load_app_hit by done. discriminate. }
  destruct (PyStr.contains ":" app_module_name) eqn:Hsep.
  2:{ rewrite load_app_no_separator by done. by intros [= <- <-]. }
  rewrite load_app_reload_path by done. intros Heq.
  pose proof (import_and_cache_outcome app_module_name
    (module_path_of app_module_name) (attribute_name_of app_module_name)
    (prepared app_module_name reload s)) as Ho.
  rewrite Heq in Ho. apply ImportOutcome_frame in Ho as (_ & _ & ->).
  rewrite prepared_self. by destruct (clears_modules (self s) reload).
Qed.

(** A call that returns hands back the two fields of [self], an app is
    cached, and unless it was a cache hit it is cached under the target. *)
Lemma load_app_return app_module_name reload s h g s' :
  load_app app_module_name reload s = (inr (h, g), s') ->
  h = _app_instance (self s') /\ g = _reload_count (self s')
  /\ (exists v, h = Some v)
  /\ (cache_hit (self s) app_module_name reload = true /\ s' = s
      \/ cache_hit (self s) app_module_name reload = false
         /\ PyStr.contains ":" app_module_name = true
         /\ _app_module_name (self s') = Some app_module_name
         /\ exists v, h = Some v /\ is_FastAPI v = true).
Proof.
  destruct (cache_hit (self s) app_module_name reload) eqn:Hhit.
  { rewrite load_app_hit by done. intros [= <- <- <-].
    repeat split; [|by left].
    apply cache_hit_spec in Hhit as (_ & Hhit & _).
    destruct (_app_instance (self s)); [eauto | done]. }
  destruct (PyStr.contains ":" app_module_name) eqn:Hsep.
  2:{ rewrite load_app_no_separator by done. discriminate. }
  rewrite load_app_reload_path by done. intros Heq.
  pose proof (import_and_cache_outcome app_module_name
    (module_path_of app_module_name) (attribute_name_of app_module_name)
    (prepared app_module_name reload s)) as Ho.
  rewrite Heq in Ho.
  apply ImportOutcome_frame in Ho as (Hc & _ & (v & -> & Hv & -> & Hs)).
  rewrite Hs. simpl. repeat split; eauto 10.
Qed.

(** *** Sequences of operations *)

Lemma consistent_init : consistent __init__.
Proof. split; simpl; try done. Qed.

Lemma load_app_consistent app_module_name reload s :
  consistent (self s) ->
  consistent (self (snd (load_app app_module_name reload s))).
Proof.
  intros [Hb Hn Hf Hc].
  pose proof (load_app_reload_count app_module_name reload s) as Hcount.
  destruct (load_app app_module_name reload s) as [[e|[h g]] s'] eqn:Heq;
    cbn [snd] in *.
  - apply load_app_raise_keeps_cache in Heq as [Hi Hm].
    split; rewrite ?Hi, ?Hm; try done.
    rewrite Hcount. destruct (bumps _ _ _); lia.
  - apply load_app_return in Heq
      as (-> & -> & _ & [[_ ->] | (_ & Hsep & Hm & v & Hv & Hfa)]).
    + by split.
    + split; rewrite ?Hm, ?Hv; try done.
      * by intros n [= <-].
      * by intros v' [= <-].
      * rewrite Hcount. destruct (bumps _ _ _); lia.
Qed.

Lemma step_consistent s s' : step s s' -> consistent (self s) -> consistent (self s').
Proof.
  destruct 1 as [T b s | s | s | s | s s' Hs]; intros Hc; simpl; try done.
  - by apply load_app_consistent.
  - destruct Hc as [Hb Hn Hf Hc]. by split.
  - by rewrite Hs.
Qed.

Lemma reachable_consistent s : reachable s -> consistent (self s).
Proof.
  intros (s0 & H0 & Hsteps).
  assert (consistent (self s0)) as Hc by (rewrite H0; apply consistent_init).
  clear H0. induction Hsteps as [|s1 s2 s3 Hstep _ IH]; [done|].
  apply IH. by eapply step_consistent.
Qed.

Lemma step_reload_count s s' :
  step s s' -> _reload_count (self s) <= _reload_count (self s').
Proof.
  destruct 1 as [T b s | s | s | s | s s' Hs]; simpl; try lia.
  - rewrite load_app_reload_count. destruct (bumps _ _ _); lia.
  - rewrite Hs. lia.
Qed.

Lemma steps_reload_count s s' :
  rtc step s s' -> _reload_count (self s) <= _reload_count (self s').
Proof.
  induction 1 as [|s1 s2 s3 Hstep _ IH]; [lia|].
  apply step_reload_count in Hstep. lia.
Qed.

(** *** What a call adds to the trace *)

Lemma prepared_trace app_module_name reload s :
  trace (prepared app_module_name reload s)
  = trace s ++ prelude app_module_name reload s.
Proof.
  unfold prepared, prelude. destruct (clears_modules _ _).
  - apply evicted_trace.
  - by rewrite app_nil_r.
Qed.

Lemma load_app_reload_path_trace app_module_name reload s :
  cache_hit (self s) app_module_name reload = false ->
  PyStr.contains ":" app_module_name = true ->
  exists rest,
    trace (snd (load_app app_module_name reload s))
    = trace s ++ prelude app_module_name reload s
        ++ CallImportModule (module_path_of app_module_name) :: rest
    /\ (rest = []
        \/ rest = [CallGetattr (module_path_of app_module_name)
                     (attribute_name_of app_module_name)]).
Proof.
  intros Hhit Hsep. rewrite load_app_reload_path by done.
  pose proof (import_and_cache_outcome app_module_name
    (module_path_of app_module_name) (attribute_name_of app_module_name)
    (prepared app_module_name reload s)) as Ho.
  destruct (import_and_cache _ _ _ _) as [res s']. cbn [snd].
  apply ImportOutcome_frame in Ho as (_ & (rest & -> & Hrest) & _).
  exists rest. by rewrite prepared_trace, <- app_assoc.
Qed.

Lemma import_calls_app tr1 tr2 :
  import_calls (tr1 ++ tr2) = (import_calls tr1 + import_calls tr2)%nat.
Proof. unfold import_calls. by rewrite filter_app, length_app. Qed.

Lemma import_calls_prelude app_module_name reload s :
  import_calls (prelude app_module_name reload s) = O.
Proof. unfold prelude. by destruct (clears_modules _ _). Qed.

Lemma load_app_import_calls app_module_name reload s :
  import_calls (trace (snd (load_app app_module_name reload s)))
  = (import_calls (trace s)
     + if cache_hit (self s) app_module_name reload
          || negb (PyStr.contains ":" app_module_name)
       then 0 else 1)%nat.
Proof.
  destruct (cache_hit (self s) app_module_name reload) eqn:Hhit.
  { rewrite load_app_hit by done. simpl. lia. }
  destruct (PyStr.contains ":" app_module_name) eqn:Hsep.
  2:{ rewrite load_app_no_separator by done. simpl. lia. }
  destruct (load_app_reload_path_trace _ _ _ Hhit Hsep) as (rest & -> & Hrest).
  rewrite !import_calls_app, import_calls_prelude. simpl.
  destruct Hrest as [-> | ->]; reflexivity.
Qed.

Lemma valid_target_contains target :
  valid_target target = true -> PyStr.contains ":" target = true.
Proof.
  unfold valid_target. intros H. apply andb_true_iff in H as [H _].
  apply Nat.eqb_eq in H. apply contains_count. lia.
Qed.

(** A call that returns through the import has imported the module, found
    the attribute and found it to be a FastAPI app. *)
Lemma ImportOutcome_return app_module_name module_path attribute_name s h g s' :
  ImportOutcome app_module_name module_path attribute_name s (inr (h, g), s') ->
  exists m w sm v,
    import_module module_path (world s) (sys_modules s) = (inr m, w, sm)
    /\ module_getattribute m attribute_name = inr v
    /\ is_FastAPI v = true
    /\ h = Some v
    /\ g = _reload_count (self s)
    /\ s' = set_self (cached v app_module_name (self s))
              (add_event (CallGetattr module_path attribute_name)
                 (imported module_path w sm s)).
Proof. inversion 1; subst. eauto 10. Qed.

(** The base path is the module path up to its first dot. *)
Lemma base_path_of_spec module_path :
  PyStr.contains "." (base_path_of module_path) = false
  /\ (module_path = base_path_of module_path
      \/ exists rest,
           module_path = base_path_of module_path +:+ "." +:+ rest).
Proof.
  unfold base_path_of. rewrite split_hd_split_1.
  destruct (PyStr.contains "." module_path) eqn:Hdot.
  - destruct (split_1_contains _ _ Hdot) as (a & b & -> & -> & Ha).
    simpl. split; [done|]. right. by exists b.
  - rewrite split_1_no_separator by done. simpl. auto.
Qed.

(** ** The claims *)

(** C6. In every state, [clear()] returns normally, empties the cached app
    and the cached name, so that [get_app()] right after it returns [None]
    without changing anything, leaves the reload count (and everything
    outside the reloader) as it was, and doing it twice leaves the same
    state as doing it once. *)
Theorem C6_clear_empties_cache_keeps_count s :
  clear s = (inr tt, set_self (cleared (self s)) s)
  /\ _app_instance (self (snd (clear s))) = None
  /\ _app_module_name (self (snd (clear s))) = None
  /\ get_app (snd (clear s)) = (inr None, snd (clear s))
  /\ fst (get_reload_count (snd (clear s))) = fst (get_reload_count s)
  /\ snd (clear (snd (clear s))) = snd (clear s).
Proof. repeat split. Qed.

(** C3, as the code has it. The reload count starts at 0 and never
    decreases along any sequence of steps. A call of [load_app] adds
    exactly 1 to it when it is not a cache hit, the target has a
    separator, and [reload] is set or an app is cached, and adds nothing
    otherwise; the addition is made before the import, so it stands
    whether the call then returns or raises. In particular a reload that
    returns hands back the old count plus 1, a cache hit leaves the count
    alone, and so do [get_app], [get_reload_count] and [clear]. *)
Theorem C3_reload_count_steps :
  _reload_count __init__ = 0
  /\ (forall s s', rtc step s s' ->
        _reload_count (self s) <= _reload_count (self s'))
  /\ (forall app_module_name reload s,
        _reload_count (self (snd (load_app app_module_name reload s)))
        = _reload_count (self s)
          + (if bumps (self s) app_module_name reload then 1 else 0))
  /\ (forall app_module_name reload s h g s',
        load_app app_module_name reload s = (inr (h, g), s') ->
        cache_hit (self s) app_module_name reload = false ->
        clears_modules (self s) reload = true ->
        g = _reload_count (self s) + 1)
  /\ (forall app_module_name reload s,
        cache_hit (self s) app_module_name reload = true ->
        _reload_count (self (snd (load_app app_module_name reload s)))
        = _reload_count (self s))
  /\ (forall s,
        _reload_count (self (snd (get_app s))) = _reload_count (self s)
        /\ _reload_count (self (snd (get_reload_count s)))
           = _reload_count (self s)
        /\ _reload_count (self (snd (clear s))) = _reload_count (self s)).
Proof.
  split; [reflexivity|]. split; [apply steps_reload_count|].
  split; [apply load_app_reload_count|]. split; [|split].
  - intros T b s h g s' Heq Hhit Hcl.
    pose proof (load_app_reload_count T b s) as Hc.
    pose proof (load_app_return _ _ _ _ _ _ Heq)
      as (_ & -> & _ & [[Hhit' _] | (_ & Hsep & _)]); [congruence|].
    rewrite Heq in Hc. cbn [snd] in Hc. rewrite Hc.
    unfold bumps. by rewrite Hhit, Hsep, Hcl.
  - intros T b s Hhit. rewrite load_app_reload_count.
    unfold bumps. rewrite Hhit. simpl. lia.
  - intros s. repeat split.
Qed.

(** C1, as the code has it. When [load_app] raises (the import raised,
    the attribute is missing, or the attribute is not a FastAPI app), the
    cached app and the cached name are what they were before the call, so
    [get_app()] still returns the app loaded earlier. A following
    [load_app(target, reload=False)] returns that app from the cache,
    with no import, when [target] is the name it is cached under; when it
    is another name (with a separator) the call goes on to the import. *)
Theorem C1_failed_load_keeps_cached_app app_module_name reload s e s' :
  load_app app_module_name reload s = (inl e, s') ->
  get_app s' = (inr (_app_instance (self s)), s')
  /\ _app_module_name (self s') = _app_module_name (self s)
  /\ (forall target,
        cache_hit (self s) target false = true ->
        load_app target false s'
        = (inr (_app_instance (self s), _reload_count (self s')), s'))
  /\ (forall target,
        cache_hit (self s) target false = false ->
        PyStr.contains ":" target = true ->
        exists rest,
          trace (snd (load_app target false s'))
          = trace s' ++ prelude target false s'
              ++ CallImportModule (module_path_of target) :: rest).
Proof.
  intros Heq. apply load_app_raise_keeps_cache in Heq as [Hi Hm].
  assert (forall target, cache_hit (self s') target false
                         = cache_hit (self s) target false) as Hhit.
  { intros target. unfold cache_hit. by rewrite Hi, Hm. }
  split; [|split; [|split]].
  - unfold get_app, bind, get, ret. by rewrite Hi.
  - exact Hm.
  - intros target Ht. rewrite load_app_hit by (by rewrite Hhit).
    by rewrite Hi.
  - intros target Ht Hsep.
    destruct (load_app_reload_path_trace target false s') as (rest & Hr & _);
      [by rewrite Hhit | done | eauto].
Qed.

(** C2, as the code has it. In every state a fresh reloader can reach, a
    target string with no separator makes [load_app] log the format
    message and raise [ValueError] with it, and nothing else changes:
    [get_app()] and [get_reload_count()] return what they returned before,
    [sys.modules] and the trace are as they were. *)
Theorem C2_no_separator_raises_ValueError app_module_name reload s :
  reachable s ->
  PyStr.contains ":" app_module_name = false ->
  load_app app_module_name reload s
  = (inl (ValueError (msg_invalid_format app_module_name)),
     add_log (msg_invalid_format app_module_name) s)
  /\ fst (get_app (snd (load_app app_module_name reload s))) = fst (get_app s)
  /\ fst (get_reload_count (snd (load_app app_module_name reload s)))
     = fst (get_reload_count s)
  /\ self (snd (load_app app_module_name reload s)) = self s
  /\ sys_modules (snd (load_app app_module_name reload s)) = sys_modules s
  /\ trace (snd (load_app app_module_name reload s)) = trace s.
Proof.
  intros Hr Hsep. apply reachable_consistent in Hr as [_ Hn _ _].
  assert (cache_hit (self s) app_module_name reload = false) as Hhit.
  { apply not_true_is_false. intros (_ & _ & Hm)%cache_hit_spec.
    apply Hn in Hm. congruence. }
  rewrite load_app_no_separator by done. repeat split.
Qed.

(** C4. For a well-formed target, when [load_app(target, False)] has
    returned an app and a count, calling it again right away returns the
    same app and the same count and leaves the whole state, trace
    included, as it is: no sweep, no eviction, no import. The two calls
    together call the import machinery at most once: once when the first
    call was a load, never when it was itself a cache hit. *)
Theorem C4_repeated_load_is_cache_hit target s h g s1 :
  valid_target target = true ->
  load_app target false s = (inr (h, g), s1) ->
  load_app target false s1 = (inr (h, g), s1)
  /\ import_calls (trace (snd (load_app target false s1)))
     = (import_calls (trace s)
        + if cache_hit (self s) target false then 0 else 1)%nat.
Proof.
  intros Hv Heq. pose proof (valid_target_contains _ Hv) as Hsep.
  pose proof (load_app_import_calls target false s) as Hcalls.
  rewrite Heq, Hsep in Hcalls. cbn [snd negb] in Hcalls.
  rewrite orb_false_r in Hcalls.
  apply load_app_return in Heq
    as (-> & -> & (v & Hv') & [[Hhit ->] | (Hhit & _ & Hm & _)]).
  - rewrite load_app_hit by done. rewrite Hhit. simpl. split; [done|lia].
  - assert (cache_hit (self s1) target false = true) as Hhit1.
    { apply cache_hit_spec. by rewrite Hm, Hv'. }
    rewrite load_app_hit by done. by rewrite Hhit in *.
Qed.

(** C5. For well-formed targets [t1 <> t2], when [load_app(t1, False)]
    has returned, [load_app(t2, False)] right after it is not a cache hit
    but the reload path from the evicted state: it runs the sweep and the
    eviction, adds 1 to the reload count, and calls the import machinery on
    [t2]'s module path. When it returns, it returns the count of the first
    call plus 1 and, as the app, not what was cached for [t1] but the
    attribute it has just read off the module that import returned, and
    this app is now cached under [t2]; when it raises, the app of [t1] is
    still cached under [t1]. *)
Theorem C5_other_target_is_reloaded t1 t2 s h1 g1 s1 :
  valid_target t1 = true ->
  valid_target t2 = true ->
  t1 <> t2 ->
  load_app t1 false s = (inr (h1, g1), s1) ->
  cache_hit (self s1) t2 false = false
  /\ _reload_count (self (snd (load_app t2 false s1))) = g1 + 1
  /\ (exists names rest,
        trace (snd (load_app t2 false s1))
        = trace s1 ++ [CallClearRegistry;
                       DelModules (base_path_of (module_path_of t2)) names;
                       CallImportModule (module_path_of t2)] ++ rest)
  /\ load_app t2 false s1
     = import_and_cache t2 (module_path_of t2) (attribute_name_of t2)
         (evicted (module_path_of t2) s1)
  /\ (forall h2 g2 s2,
        load_app t2 false s1 = (inr (h2, g2), s2) ->
        g2 = g1 + 1
        /\ exists m w sm v,
             import_module (module_path_of t2)
               (world (evicted (module_path_of t2) s1))
               (sys_modules (evicted (module_path_of t2) s1))
             = (inr m, w, sm)
             /\ module_getattribute m (attribute_name_of t2) = inr v
             /\ is_FastAPI v = true
             /\ h2 = Some v
             /\ _app_instance (self s2) = Some v
             /\ _app_module_name (self s2) = Some t2)
  /\ (forall e s2,
        load_app t2 false s1 = (inl e, s2) ->
        _app_instance (self s2) = h1
        /\ _app_module_name (self s2) = Some t1).
Proof.
  intros Hv1 Hv2 Hne Heq.
  pose proof (valid_target_contains _ Hv2) as Hsep.
  apply load_app_return in Heq as (-> & -> & (v & Hv') & Hpath).
  assert (_app_module_name (self s1) = Some t1) as Hm.
  { destruct Hpath as [[Hhit ->] | (_ & _ & Hm & _)]; [|done].
    by apply cache_hit_spec in Hhit as (_ & _ & Hhit). }
  assert (cache_hit (self s1) t2 false = false) as Hhit2.
  { apply not_true_is_false. intros (_ & _ & Hm')%cache_hit_spec.
    congruence. }
  assert (clears_modules (self s1) false = true) as Hcl.
  { apply clears_modules_spec. right. by rewrite Hv'. }
  assert (_reload_count (self (snd (load_app t2 false s1)))
          = _reload_count (self s1) + 1) as Hcount.
  { rewrite load_app_reload_count. unfold bumps.
    by rewrite Hhit2, Hsep, Hcl. }
  assert (load_app t2 false s1
          = import_and_cache t2 (module_path_of t2) (attribute_name_of t2)
              (evicted (module_path_of t2) s1)) as Hpath2.
  { rewrite load_app_reload_path by done. unfold prepared. by rewrite Hcl. }
  split; [done|]. split; [done|]. split; [|split; [done|split]].
  - destruct (load_app_reload_path_trace t2 false s1 Hhit2 Hsep)
      as (rest & -> & _).
    unfold prelude. rewrite Hcl. eexists _, rest. reflexivity.
  - intros h2 g2 s2 Heq2. split.
    + rewrite Heq2 in Hcount. cbn [snd] in Hcount.
      by apply load_app_return in Heq2 as (_ & -> & _).
    + rewrite Hpath2 in Heq2.
      pose proof (import_and_cache_outcome t2 (module_path_of t2)
        (attribute_name_of t2) (evicted (module_path_of t2) s1)) as Ho.
      rewrite Heq2 in Ho.
      apply ImportOutcome_return in Ho
        as (m & w & sm & v2 & Him & Hat & Hfa & -> & _ & ->).
      exists m, w, sm, v2. by repeat split.
  - intros e s2 Heq2.
    apply load_app_raise_keeps_cache in Heq2 as [-> ->]. done.
Qed.

(** C7. On the reload path with the eviction guard set, the import
    starts from [sys.modules] as the sweep left it minus the evicted
    names. The base path is the target's module path up to its first dot,
    and a name is evicted exactly when it is the base path or the base
    path followed by a dot and more: such a name is gone, every other
    name maps to what it mapped to. With module path [pkg.app], the
    entry for [pkgfoo] stays. *)
Theorem C7_eviction_at_dot_boundary app_module_name reload s :
  cache_hit (self s) app_module_name reload = false ->
  PyStr.contains ":" app_module_name = true ->
  clears_modules (self s) reload = true ->
  load_app app_module_name reload s
  = import_and_cache app_module_name
      (module_path_of app_module_name) (attribute_name_of app_module_name)
      (evicted (module_path_of app_module_name) s)
  /\ PyStr.contains "." (base_path_of (module_path_of app_module_name)) = false
  /\ (module_path_of app_module_name
      = base_path_of (module_path_of app_module_name)
      \/ exists rest,
           module_path_of app_module_name
           = base_path_of (module_path_of app_module_name) +:+ "." +:+ rest)
  /\ (forall name,
        name = base_path_of (module_path_of app_module_name)
        \/ (exists rest,
              name = base_path_of (module_path_of app_module_name)
                       +:+ "." +:+ rest) ->
        sys_modules (evicted (module_path_of app_module_name) s) !! name = None)
  /\ (forall name,
        ~ (name = base_path_of (module_path_of app_module_name)
           \/ (exists rest,
                 name = base_path_of (module_path_of app_module_name)
                          +:+ "." +:+ rest)) ->
        sys_modules (evicted (module_path_of app_module_name) s) !! name
        = sys_modules (swept s) !! name)
  /\ (forall s0 : Interp World,
        sys_modules (evicted "pkg.app" s0) !! "pkgfoo"
        = sys_modules (swept s0) !! "pkgfoo").
Proof.
  intros Hhit Hsep Hcl. split; [|split; [|split; [|split; [|split]]]].
  - rewrite load_app_reload_path by done. unfold prepared. by rewrite Hcl.
  - apply base_path_of_spec.
  - apply base_path_of_spec.
  - intros name Hown. apply owned_by_spec in Hown.
    by rewrite evicted_sys_modules, Hown.
  - intros name Hown. rewrite evicted_sys_modules.
    destruct (owned_by _ name) eqn:Ho; [|done].
    by apply owned_by_spec in Ho.
  - intros s0. by rewrite evicted_sys_modules.
Qed.

(** C8. From a freshly constructed reloader, when
    [load_app("pkg.app:service")] returns, it has called the import
    machinery on [pkg.app], read [service] off the module it got, cached
    that object under the target, and returned it with count 0; when a
    following [load_app("pkg.app:service", reload=True)] returns, it
    returns count 1, having swept, evicted under [pkg], and called the
    import machinery on [pkg.app] again. *)
Theorem C8_load_then_forced_reload s0 h1 g1 s1 h2 g2 s2 :
  self s0 = __init__ ->
  load_app "pkg.app:service" false s0 = (inr (h1, g1), s1) ->
  load_app "pkg.app:service" true s1 = (inr (h2, g2), s2) ->
  (exists m w sm v,
     import_module "pkg.app" (world s0) (sys_modules s0) = (inr m, w, sm)
     /\ module_getattribute m "service" = inr v /\ h1 = Some v)
  /\ trace s1
     = trace s0 ++ [CallImportModule "pkg.app"; CallGetattr "pkg.app" "service"]
  /\ _app_instance (self s1) = h1
  /\ _app_module_name (self s1) = Some "pkg.app:service"
  /\ g1 = 0
  /\ g2 = 1
  /\ (exists names,
        trace s2
        = trace s1 ++ [CallClearRegistry; DelModules "pkg" names;
                       CallImportModule "pkg.app";
                       CallGetattr "pkg.app" "service"]).
Proof.
  intros Hinit Heq1 Heq2.
  rewrite load_app_reload_path in Heq1;
    [| apply not_true_is_false; intros (_ & Hi & _)%cache_hit_spec;
       by rewrite Hinit in Hi | done].
  rewrite load_app_reload_path in Heq2;
    [| apply not_true_is_false; by intros (? & _)%cache_hit_spec | done].
  pose proof (import_and_cache_outcome "pkg.app:service"
    (module_path_of "pkg.app:service") (attribute_name_of "pkg.app:service")
    (prepared "pkg.app:service" false s0)) as Ho1.
  rewrite Heq1 in Ho1.
  apply ImportOutcome_return in Ho1
    as (m & w & sm & v & Him & Hat & _ & -> & -> & ->).
  pose proof (import_and_cache_outcome "pkg.app:service"
    (module_path_of "pkg.app:service") (attribute_name_of "pkg.app:service")
    (prepared "pkg.app:service" true
       (set_self (cached v "pkg.app:service"
                    (self (prepared "pkg.app:service" false s0)))
          (add_event (CallGetattr (module_path_of "pkg.app:service")
                        (attribute_name_of "pkg.app:service"))
             (imported (module_path_of "pkg.app:service") w sm
                (prepared "pkg.app:service" false s0)))))) as Ho2.
  rewrite Heq2 in Ho2. clear Heq1 Heq2.
  apply ImportOutcome_return in Ho2
    as (m2 & w2 & sm2 & v2 & _ & _ & _ & -> & -> & ->).
  unfold prepared in *. unfold clears_modules in *.
  rewrite Hinit in *. cbn [_app_instance __init__ orb] in *.
  rewrite bool_decide_eq_false_2 in * by (intros H; by apply H).
  cbn [orb] in *.
  repeat split.
  - by exists m, w, sm, v.
  - simpl. by rewrite <- app_assoc.
  - by rewrite Hinit.
  - rewrite evicted_self. simpl. by rewrite Hinit.
  - eexists. unfold imported.
    cbn [trace set_self add_event set_sys_modules set_world].
    rewrite evicted_trace.
    cbn [trace set_self add_event set_sys_modules set_world].
    rewrite <- !app_assoc. reflexivity.
Qed.

(** C9, as the code has it. On the reload path (no cache hit, a
    separator in the target) the sweep is called exactly when [reload] is
    set or an app is cached, which is also exactly when modules are
    evicted; when it is called, it is the first thing the call does, the
    eviction comes right after it and works on [sys.modules] as the sweep
    left it, and the import comes after both. *)
Theorem C9_sweep_guard_and_order app_module_name reload s :
  cache_hit (self s) app_module_name reload = false ->
  PyStr.contains ":" app_module_name = true ->
  exists new,
    trace (snd (load_app app_module_name reload s)) = trace s ++ new
    /\ (CallClearRegistry ∈ new
        <-> reload = true \/ _app_instance (self s) <> None)
    /\ ((exists base_path names, DelModules base_path names ∈ new)
        <-> reload = true \/ _app_instance (self s) <> None)
    /\ (reload = true \/ _app_instance (self s) <> None ->
        exists rest,
          new = [CallClearRegistry;
                 DelModules (base_path_of (module_path_of app_module_name))
                   (modules_to_delete
                      (base_path_of (module_path_of app_module_name))
                      (sys_modules (swept s)));
                 CallImportModule (module_path_of app_module_name)] ++ rest).
Proof.
  intros Hhit Hsep.
  destruct (load_app_reload_path_trace _ _ _ Hhit Hsep) as (rest & -> & Hrest).
  eexists. split; [reflexivity|].
  rewrite <- clears_modules_spec. unfold prelude.
  destruct (clears_modules (self s) reload).
  - split; [|split].
    + split; [done|]. intros _. by left.
    + split; [done|]. intros _. eexists _, _. right. by left.
    + intros _. by exists rest.
  - split; [|split]; [split; [|done] | split; [|done] | done].
    + intros Hin. cbn [app] in Hin.
      apply elem_of_cons in Hin as [?|Hin]; [done|].
      destruct Hrest as [-> | ->].
      * by apply elem_of_nil in Hin.
      * apply list_elem_of_singleton in Hin. done.
    + intros (bp & names & Hin). cbn [app] in Hin.
      apply elem_of_cons in Hin as [?|Hin]; [done|].
      destruct Hrest as [-> | ->].
      * by apply elem_of_nil in Hin.
      * apply list_elem_of_singleton in Hin. done.
Qed.


End Properties.

(** ** The claims on the demo interpreter *)

(** Forcing a reload while [pkg.app] is broken: the import raises, the
    reloader had an app, and afterwards [get_app()] does not return [None]
    but the old app; a following [load_app] without [reload] returns the old
    app from the cache and leaves the state, trace included, as it is. *)
Lemma C1_counterexample_stale_app_served :
  _app_instance (self Demo.loaded_broken) = Some Demo.service
  /\ fst (load_app "pkg.app:service" true Demo.loaded_broken)
     = inl (OtherException "SyntaxError")
  /\ fst (get_app Demo.after_failed_reload) <> inr None
  /\ load_app "pkg.app:service" false Demo.after_failed_reload
     = (inr (Some Demo.service, 1), Demo.after_failed_reload).
Proof.
  split; [reflexivity|]. split; [vm_compute; reflexivity|].
  split; [vm_compute; discriminate|]. vm_compute; reflexivity.
Qed.

Lemma C1_witness :
  load_app "pkg.app:service" true Demo.loaded_broken
  = (inl (OtherException "SyntaxError"), Demo.after_failed_reload)
  /\ get_app Demo.after_failed_reload
     = (inr (_app_instance (self Demo.loaded_broken)), Demo.after_failed_reload).
Proof.
  assert (load_app "pkg.app:service" true Demo.loaded_broken
          = (inl (OtherException "SyntaxError"), Demo.after_failed_reload))
    as H by (vm_compute; reflexivity).
  split; [exact H|].
  exact (proj1 (C1_failed_load_keeps_cached_app  "pkg.app:service" true Demo.loaded_broken
                  (OtherException "SyntaxError") Demo.after_failed_reload H)).
Defined.

(** A target with two separators, on a reloader that has an app: the
    target is not well formed, yet what is raised is not [ValueError] (the
    attribute [service:extra] is looked up and found missing) and the reload
    count has moved. A target with an empty module segment: here the import
    machinery raises a [ValueError] of its own, after the eviction block has
    run, so the reload count has moved too. *)
Lemma C2_counterexample_two_separators :
  valid_target "pkg.app:service:extra" = false
  /\ ~ (exists msg, fst (load_app "pkg.app:service:extra" false Demo.loaded_good)
                    = inl (ValueError msg))
  /\ fst (get_reload_count
            (snd (load_app "pkg.app:service:extra" false Demo.loaded_good)))
     <> fst (get_reload_count Demo.loaded_good)
  /\ valid_target ":service" = false
  /\ fst (get_reload_count (snd (load_app ":service" false Demo.loaded_good)))
     <> fst (get_reload_count Demo.loaded_good).
Proof.
  split; [reflexivity|]. split; [|split; [|split]].
  - intros [msg H]. vm_compute in H. discriminate.
  - vm_compute. discriminate.
  - reflexivity.
  - vm_compute. discriminate.
Qed.

Lemma C2_witness :
  reachable Demo.fresh
  /\ PyStr.contains ":" "pkg.app" = false
  /\ load_app "pkg.app" false Demo.fresh
     = (inl (ValueError (msg_invalid_format "pkg.app")),
        add_log (msg_invalid_format "pkg.app") Demo.fresh).
Proof.
  assert (reachable Demo.fresh) as Hr.
  { exists Demo.fresh. split; [reflexivity | apply rtc_refl]. }
  split; [exact Hr|]. split; [reflexivity|].
  exact (proj1 (C2_no_separator_raises_ValueError  "pkg.app" false Demo.fresh Hr eq_refl)).
Defined.

(** A forced reload that fails on the broken source still moves the reload
    count from 0 to 1. *)
Lemma C3_counterexample_failed_reload_counts :
  fst (load_app "pkg.app:service" true Demo.loaded_broken)
  = inl (OtherException "SyntaxError")
  /\ _reload_count (self Demo.loaded_broken) = 0
  /\ _reload_count (self Demo.after_failed_reload) = 1
  /\ _reload_count (self Demo.after_failed_reload)
     <> _reload_count (self Demo.loaded_broken).
Proof.
  split; [vm_compute; reflexivity|]. split; [reflexivity|].
  split; [vm_compute; reflexivity|]. vm_compute. discriminate.
Qed.

Lemma C3_witness :
  rtc (step)
    Demo.loaded_broken Demo.after_failed_reload
  /\ _reload_count (self Demo.loaded_broken)
     <= _reload_count (self Demo.after_failed_reload).
Proof.
  assert (rtc (step)
            Demo.loaded_broken Demo.after_failed_reload) as H.
  { apply rtc_once. apply step_load_app. }
  split; [exact H|].
  exact (proj1 (proj2 (C3_reload_count_steps))
           _ _ H).
Defined.

Lemma C4_witness :
  valid_target "pkg.app:service" = true
  /\ load_app "pkg.app:service" false Demo.fresh
     = (inr (Some Demo.service, 0), Demo.after_first_load)
  /\ load_app "pkg.app:service" false Demo.after_first_load
     = (inr (Some Demo.service, 0), Demo.after_first_load).
Proof.
  assert (load_app "pkg.app:service" false Demo.fresh
          = (inr (Some Demo.service, 0), Demo.after_first_load))
    as H by (vm_compute; reflexivity).
  split; [reflexivity|]. split; [exact H|].
  exact (proj1 (C4_repeated_load_is_cache_hit  "pkg.app:service" Demo.fresh
                  (Some Demo.service) 0 Demo.after_first_load eq_refl H)).
Defined.

Lemma C5_witness :
  valid_target "pkg.app:service" = true
  /\ valid_target "other.app:api" = true
  /\ "pkg.app:service" <> "other.app:api"
  /\ load_app "pkg.app:service" false Demo.fresh
     = (inr (Some Demo.service, 0), Demo.after_first_load)
  /\ _reload_count
       (self (snd (load_app "other.app:api" false Demo.after_first_load)))
     = 0 + 1
  /\ fst (load_app "other.app:api" false Demo.after_first_load)
     = inr (Some Demo.service', 1)
  /\ Demo.service' <> Demo.service.
Proof.
  assert (load_app "pkg.app:service" false Demo.fresh
          = (inr (Some Demo.service, 0), Demo.after_first_load))
    as H by (vm_compute; reflexivity).
  assert ("pkg.app:service" <> "other.app:api") as Hne by discriminate.
  split; [reflexivity|]. split; [reflexivity|]. split; [exact Hne|].
  split; [exact H|]. split; [|split; [vm_compute; reflexivity | discriminate]].
  exact (proj1 (proj2 (C5_other_target_is_reloaded  "pkg.app:service" "other.app:api"
                         Demo.fresh (Some Demo.service) 0
                         Demo.after_first_load eq_refl eq_refl Hne H))).
Defined.

Lemma C7_witness :
  cache_hit (self Demo.loaded_good) "pkg.app:service" true = false
  /\ PyStr.contains ":" "pkg.app:service" = true
  /\ clears_modules (self Demo.loaded_good) true = true
  /\ sys_modules
       (evicted (module_path_of "pkg.app:service")
          Demo.loaded_good) !! "pkg.app" = None.
Proof.
  split; [reflexivity|]. split; [reflexivity|]. split; [reflexivity|].
  refine (proj1 (proj2 (proj2 (proj2
            (C7_eviction_at_dot_boundary
               "pkg.app:service" true Demo.loaded_good
               eq_refl eq_refl eq_refl)))) "pkg.app" _).
  right. exists "app". reflexivity.
Defined.

Lemma C8_witness :
  self Demo.fresh = __init__
  /\ load_app "pkg.app:service" false Demo.fresh
     = (inr (Some Demo.service, 0), Demo.after_first_load)
  /\ load_app "pkg.app:service" true Demo.after_first_load
     = (inr (Some Demo.service, 1), Demo.after_forced_reload)
  /\ trace Demo.after_first_load
     = trace Demo.fresh
       ++ [CallImportModule "pkg.app"; CallGetattr "pkg.app" "service"].
Proof.
  assert (load_app "pkg.app:service" false Demo.fresh
          = (inr (Some Demo.service, 0), Demo.after_first_load))
    as H1 by (vm_compute; reflexivity).
  assert (load_app "pkg.app:service" true Demo.after_first_load
          = (inr (Some Demo.service, 1), Demo.after_forced_reload))
    as H2 by (vm_compute; reflexivity).
  split; [reflexivity|]. split; [exact H1|]. split; [exact H2|].
  exact (proj1 (proj2 (C8_load_then_forced_reload  Demo.fresh (Some Demo.service) 0
                         Demo.after_first_load (Some Demo.service) 1
                         Demo.after_forced_reload eq_refl H1 H2))).
Defined.

(** A forced reload on a fresh reloader takes the reload path with no app
    cached, and the sweep is called all the same. *)
Lemma C9_counterexample_sweep_without_app :
  _app_instance (self Demo.fresh) = None
  /\ cache_hit (self Demo.fresh) "pkg.app:service" true = false
  /\ PyStr.contains ":" "pkg.app:service" = true
  /\ trace (snd (load_app "pkg.app:service" true Demo.fresh))
     = [CallClearRegistry; DelModules "pkg" [];
        CallImportModule "pkg.app"; CallGetattr "pkg.app" "service"]
  /\ ~ (CallClearRegistry ∈ trace (snd (load_app "pkg.app:service" true Demo.fresh))
        <-> _app_instance (self Demo.fresh) <> None).
Proof.
  assert (trace (snd (load_app "pkg.app:service" true Demo.fresh))
          = [CallClearRegistry; DelModules "pkg" [];
             CallImportModule "pkg.app"; CallGetattr "pkg.app" "service"])
    as Ht by (vm_compute; reflexivity).
  split; [reflexivity|]. split; [reflexivity|]. split; [reflexivity|].
  split; [exact Ht|]. rewrite Ht. intros [H _].
  apply H; [by left | reflexivity].
Qed.

Lemma C9_witness :
  cache_hit (self Demo.fresh) "pkg.app:service" true = false
  /\ PyStr.contains ":" "pkg.app:service" = true
  /\ exists new,
       trace (snd (load_app "pkg.app:service" true Demo.fresh))
       = trace Demo.fresh ++ new
       /\ (CallClearRegistry ∈ new
           <-> true = true \/ _app_instance (self Demo.fresh) <> None).
Proof.
  split; [reflexivity|]. split; [reflexivity|].
  destruct (C9_sweep_guard_and_order
              "pkg.app:service" true Demo.fresh eq_refl eq_refl)
    as (new & Ht & Hsweep & _).
  exists new. split; [exact Ht | exact Hsweep].
Defined.


(** * Further properties of the reloader *)

Section MoreProperties.

Context {World : Type} `{!Runtime World}.

Implicit Types (s : Interp World) (r : AppReloader).





(** X3. In every state a freshly constructed reloader can reach through
    its methods, the two cache fields are empty together or set together,
    a cached name has a separator, a cached app is a FastAPI app, and the
    reload count is not negative. *)
Theorem X3_reachable_fields_consistent s :
  reachable s ->
  (_app_instance (self s) = None <-> _app_module_name (self s) = None)
  /\ (forall n, _app_module_name (self s) = Some n ->
                PyStr.contains ":" n = true)
  /\ (forall v, _app_instance (self s) = Some v -> is_FastAPI v = true)
  /\ 0 <= _reload_count (self s).
Proof. intros Hr. by apply reachable_consistent in Hr as [? ? ? ?]. Qed.

(** X4. [load_app] returns, rather than raises, exactly when it is a
    cache hit, or the target has a separator and the import of the module
    path (run after the eviction block when its guard holds) returns a
    module on which the attribute lookup gives a FastAPI app. *)
Theorem X4_load_app_returns_iff (app_module_name : string) (reload : bool) s :
  (exists h g s', load_app app_module_name reload s = (inr (h, g), s'))
  <-> cache_hit (self s) app_module_name reload = true
      \/ (PyStr.contains ":" app_module_name = true
          /\ exists m w sm v,
               import_module (module_path_of app_module_name)
                 (world (prepared app_module_name reload s))
                 (sys_modules (prepared app_module_name reload s))
               = (inr m, w, sm)
               /\ module_getattribute m (attribute_name_of app_module_name)
                  = inr v
               /\ is_FastAPI v = true).
Proof.
  destruct (cache_hit (self s) app_module_name reload) eqn:Hhit.
  { rewrite load_app_hit by done. split; [by left | eauto]. }
  destruct (PyStr.contains ":" app_module_name) eqn:Hsep.
  2:{ rewrite load_app_no_separator by done. split.
      - by intros (h & g & s' & ?).
      - by intros [? | [? _]]. }
  rewrite load_app_reload_path by done.
  pose proof (import_and_cache_outcome app_module_name
    (module_path_of app_module_name) (attribute_name_of app_module_name)
    (prepared app_module_name reload s)) as Ho.
  split.
  - intros (h & g & s' & Heq). rewrite Heq in Ho. right. split; [done|].
    apply ImportOutcome_return in Ho as (m & w & sm & v & ? & ? & ? & _).
    eauto 8.
  - intros [? | (_ & m & w & sm & v & Him & Hat & Hv)]; [done|].
    destruct (import_and_cache _ _ _ _) as [[e|[h g]] s']; [|eauto].
    exfalso. inversion Ho; subst; congruence.
Qed.

(** X5. When [load_app] returns an app and a count, the app is not
    [None], and [get_app()] and [get_reload_count()] called right after
    return that same app and that same count, changing nothing. *)
Theorem X5_load_app_then_peek (app_module_name : string) (reload : bool) s h g s' :
  load_app app_module_name reload s = (inr (h, g), s') ->
  h <> None
  /\ get_app s' = (inr h, s')
  /\ get_reload_count s' = (inr g, s').
Proof.
  intros Heq. apply load_app_return in Heq as (-> & -> & (v & Hv) & _).
  split; [by rewrite Hv | done].
Qed.

(** X6. In every state a fresh reloader can reach, what [load_app]
    returns is a FastAPI app, also when it comes from the cache. *)
Theorem X6_load_app_returns_FastAPI (app_module_name : string) (reload : bool)
    s h g s' :
  reachable s ->
  load_app app_module_name reload s = (inr (h, g), s') ->
  exists v, h = Some v /\ is_FastAPI v = true.
Proof.
  intros Hr Heq. apply reachable_consistent in Hr as [_ _ Hf _].
  apply load_app_return in Heq
    as (-> & _ & (v & Hv) & [[_ ->] | (_ & _ & _ & v' & ? & ?)]); [|eauto].
  exists v. split; [done|]. by apply Hf.
Qed.

(** X7. With [reload=True] and a target that has a separator, whatever is
    cached and under whatever name: the sweep and the eviction run, the
    reload count goes up by exactly 1, the import machinery is called
    exactly once, on the target's module path, and when the call returns it
    returns the old count plus 1. *)
Theorem X7_forced_reload_always_reloads (app_module_name : string) s :
  PyStr.contains ":" app_module_name = true ->
  _reload_count (self (snd (load_app app_module_name true s)))
  = _reload_count (self s) + 1
  /\ import_calls (trace (snd (load_app app_module_name true s)))
     = S (import_calls (trace s))
  /\ (exists names rest,
        trace (snd (load_app app_module_name true s))
        = trace s
          ++ [CallClearRegistry;
              DelModules (base_path_of (module_path_of app_module_name)) names;
              CallImportModule (module_path_of app_module_name)] ++ rest)
  /\ (forall h g s',
        load_app app_module_name true s = (inr (h, g), s') ->
        g = _reload_count (self s) + 1).
Proof.
  intros Hsep.
  assert (cache_hit (self s) app_module_name true = false) as Hhit.
  { apply not_true_is_false. by intros (? & _)%cache_hit_spec. }
  assert (_reload_count (self (snd (load_app app_module_name true s)))
          = _reload_count (self s) + 1) as Hcount.
  { rewrite load_app_reload_count. unfold bumps. by rewrite Hhit, Hsep. }
  split; [done|]. split; [|split].
  - rewrite load_app_import_calls, Hhit, Hsep. simpl. lia.
  - destruct (load_app_reload_path_trace _ _ _ Hhit Hsep) as (rest & -> & _).
    unfold prelude. simpl. eexists _, rest. reflexivity.
  - intros h g s' Heq. rewrite Heq in Hcount. cbn [snd] in Hcount.
    by apply load_app_return in Heq as (_ & -> & _).
Qed.

(** X8. What one call of [load_app] does to the outside, in order: nothing
    on a cache hit or when the target has no separator; otherwise the sweep
    and the eviction when [reload] is set or an app is cached, then one
    import of the module path, then one attribute lookup if and only if the
    import returned. *)
Theorem X8_load_app_trace (app_module_name : string) (reload : bool) s :
  trace (snd (load_app app_module_name reload s))
  = trace s
    ++ if cache_hit (self s) app_module_name reload
          || negb (PyStr.contains ":" app_module_name)
       then []
       else prelude app_module_name reload s
            ++ CallImportModule (module_path_of app_module_name)
               :: match import_module (module_path_of app_module_name)
                          (world (prepared app_module_name reload s))
                          (sys_modules (prepared app_module_name reload s))
                  with
                  | (inl _, _, _) => []
                  | (inr _, _, _) =>
                      [CallGetattr (module_path_of app_module_name)
                         (attribute_name_of app_module_name)]
                  end.
Proof.
  destruct (cache_hit (self s) app_module_name reload) eqn:Hhit.
  { rewrite load_app_hit by done. simpl. by rewrite app_nil_r. }
  destruct (PyStr.contains ":" app_module_name) eqn:Hsep.
  2:{ rewrite load_app_no_separator by done. simpl. by rewrite app_nil_r. }
  rewrite load_app_reload_path by done. cbn [orb negb].
  pose proof (import_and_cache_outcome app_module_name
    (module_path_of app_module_name) (attribute_name_of app_module_name)
    (prepared app_module_name reload s)) as Ho.
  destruct (import_and_cache _ _ _ _) as [res s']. cbn [snd].
  inversion Ho as [e w sm Him | m w sm msg Him Hat | m w sm e Him Hat He
                   | m w sm v Him Hat Hv | m w sm v Him Hat Hv];
    subst; rewrite Him; simpl;
    rewrite prepared_trace, <- !app_assoc; reflexivity.
Qed.

Lemma evictions_app tr1 tr2 :
  evictions (tr1 ++ tr2) = (evictions tr1 + evictions tr2)%nat.
Proof. unfold evictions. by rewrite filter_app, length_app. Qed.

Lemma evictions_prelude (app_module_name : string) (reload : bool) s :
  evictions (prelude app_module_name reload s)
  = if clears_modules (self s) reload then 1%nat else 0%nat.
Proof. unfold prelude. by destruct (clears_modules _ _). Qed.

Lemma do_op_reload_count_evictions (op : Op) s :
  _reload_count (self (do_op op s)) - _reload_count (self s)
  = Z.of_nat (evictions (trace (do_op op s))) - Z.of_nat (evictions (trace s)).
Proof.
  destruct op as [app_module_name reload | | |]; simpl; try lia.
  destruct (cache_hit (self s) app_module_name reload) eqn:Hhit.
  { rewrite load_app_hit by done. simpl. lia. }
  destruct (PyStr.contains ":" app_module_name) eqn:Hsep.
  2:{ rewrite load_app_no_separator by done. simpl. lia. }
  rewrite load_app_reload_count. unfold bumps. rewrite Hhit, Hsep.
  destruct (load_app_reload_path_trace _ _ _ Hhit Hsep) as (rest & -> & Hrest).
  rewrite !evictions_app, evictions_prelude. cbn [negb andb].
  assert (evictions (CallImportModule (module_path_of app_module_name) :: rest)
          = O) as -> by (by destruct Hrest as [-> | ->]).
  destruct (clears_modules (self s) reload); lia.
Qed.

(** X9. Along any sequence of method calls, the reload count grows by
    exactly the number of times [sys.modules] was evicted: from a fresh
    reloader with an empty trace, [get_reload_count()] is the number of
    evictions so far, and between two moments with the same count the
    reloader has evicted nothing. *)
Theorem X9_reload_count_counts_evictions (ops : list Op) s :
  _reload_count (self (run ops s)) - _reload_count (self s)
  = Z.of_nat (evictions (trace (run ops s))) - Z.of_nat (evictions (trace s)).
Proof.
  revert s. induction ops as [|op ops IH]; intros s; [simpl; lia|].
  change (run (op :: ops) s) with (run ops (do_op op s)).
  pose proof (IH (do_op op s)). pose proof (do_op_reload_count_evictions op s).
  lia.
Qed.


(** X11. A call of [load_app] leaves the cache empty only when the cache
    was empty before it and the call raised: [load_app] never empties a
    cache that holds an app. *)
Theorem X11_load_app_never_empties_cache
    (app_module_name : string) (reload : bool) s res s' :
  load_app app_module_name reload s = (res, s') ->
  _app_instance (self s') = None
  <-> _app_instance (self s) = None /\ exists e, res = inl e.
Proof.
  intros Heq. destruct res as [e|[h g]].
  - apply load_app_raise_keeps_cache in Heq as [-> _]. split; [eauto | tauto].
  - apply load_app_return in Heq as (-> & _ & (v & ->) & _).
    split; [done | by intros [_ [e ?]]].
Qed.


(** X13. In every state a fresh reloader can reach, an app that
    [get_app()] returns is cached under a name, and [load_app] with that
    name and [reload=False] returns that same app with the current count,
    changing nothing. *)
Theorem X13_cached_app_served_under_its_name s v :
  reachable s ->
  get_app s = (inr (Some v), s) ->
  exists n,
    _app_module_name (self s) = Some n
    /\ load_app n false s = (inr (Some v, _reload_count (self s)), s).
Proof.
  intros Hr Hget. apply reachable_consistent in Hr as [Hb _ _ _].
  unfold get_app, bind, get, ret in Hget. injection Hget as Hv.
  destruct (_app_module_name (self s)) as [n|] eqn:Hn.
  - exists n. split; [done|]. rewrite load_app_hit; [by rewrite Hv|].
    apply cache_hit_spec. by rewrite Hv, Hn.
  - destruct Hb as [_ Hb]. rewrite Hb in Hv; done.
Qed.


End MoreProperties.

(** ** The further properties on the demo interpreter *)



Lemma X3_witness :
  reachable Demo.after_first_load
  /\ 0 <= _reload_count (self Demo.after_first_load).
Proof.
  assert (reachable Demo.after_first_load) as Hr.
  { exists Demo.fresh. split; [reflexivity|].
    apply rtc_once. unfold Demo.after_first_load. apply step_load_app. }
  split; [exact Hr|].
  exact (proj2 (proj2 (proj2 (X3_reachable_fields_consistent _ Hr)))).
Defined.

Lemma X4_witness :
  exists h g s',
    load_app "pkg.app:service" false Demo.fresh = (inr (h, g), s').
Proof.
  apply (proj2 (X4_load_app_returns_iff "pkg.app:service" false Demo.fresh)).
  right. split; [reflexivity|].
  exists Demo.pkg_app, Demo.good_disk, {[ "pkg.app" := Demo.pkg_app ]},
    Demo.service.
  split; [vm_compute; reflexivity|]. split; reflexivity.
Defined.

Lemma X5_witness :
  load_app "pkg.app:service" false Demo.fresh
  = (inr (Some Demo.service, 0), Demo.after_first_load)
  /\ get_app Demo.after_first_load
     = (inr (Some Demo.service), Demo.after_first_load).
Proof.
  assert (load_app "pkg.app:service" false Demo.fresh
          = (inr (Some Demo.service, 0), Demo.after_first_load))
    as H by (vm_compute; reflexivity).
  split; [exact H|].
  exact (proj1 (proj2 (X5_load_app_then_peek "pkg.app:service" false Demo.fresh
                         (Some Demo.service) 0 Demo.after_first_load H))).
Defined.

Lemma X6_witness :
  reachable Demo.fresh
  /\ load_app "pkg.app:service" false Demo.fresh
     = (inr (Some Demo.service, 0), Demo.after_first_load)
  /\ exists v, Some Demo.service = Some v /\ is_FastAPI v = true.
Proof.
  assert (reachable Demo.fresh) as Hr.
  { exists Demo.fresh. split; [reflexivity | apply rtc_refl]. }
  assert (load_app "pkg.app:service" false Demo.fresh
          = (inr (Some Demo.service, 0), Demo.after_first_load))
    as H by (vm_compute; reflexivity).
  split; [exact Hr|]. split; [exact H|].
  exact (X6_load_app_returns_FastAPI "pkg.app:service" false Demo.fresh
           (Some Demo.service) 0 Demo.after_first_load Hr H).
Defined.

Lemma X7_witness :
  PyStr.contains ":" "other.app:api" = true
  /\ _reload_count (self (snd (load_app "other.app:api" true Demo.loaded_good)))
     = _reload_count (self Demo.loaded_good) + 1.
Proof.
  split; [reflexivity|].
  exact (proj1 (X7_forced_reload_always_reloads "other.app:api"
                  Demo.loaded_good eq_refl)).
Defined.


Lemma X11_witness :
  load_app "pkg.app:service" true Demo.loaded_broken
  = (inl (OtherException "SyntaxError"), Demo.after_failed_reload)
  /\ _app_instance (self Demo.after_failed_reload) <> None.
Proof.
  assert (load_app "pkg.app:service" true Demo.loaded_broken
          = (inl (OtherException "SyntaxError"), Demo.after_failed_reload))
    as H by (vm_compute; reflexivity).
  split; [exact H|]. intros Hn.
  apply (proj1 (X11_load_app_never_empties_cache "pkg.app:service" true
                  Demo.loaded_broken _ _ H)) in Hn as [Hn _].
  discriminate Hn.
Defined.


Lemma X13_witness :
  reachable Demo.after_first_load
  /\ get_app Demo.after_first_load
     = (inr (Some Demo.service), Demo.after_first_load)
  /\ exists n,
       _app_module_name (self Demo.after_first_load) = Some n
       /\ load_app n false Demo.after_first_load
          = (inr (Some Demo.service,
                  _reload_count (self Demo.after_first_load)),
             Demo.after_first_load).
Proof.
  assert (reachable Demo.after_first_load) as Hr.
  { exists Demo.fresh. split; [reflexivity|].
    apply rtc_once. unfold Demo.after_first_load. apply step_load_app. }
  assert (get_app Demo.after_first_load
          = (inr (Some Demo.service), Demo.after_first_load))
    as H by (vm_compute; reflexivity).
  split; [exact Hr|]. split; [exact H|].
  exact (X13_cached_app_served_under_its_name Demo.after_first_load
           Demo.service Hr H).
Defined.
